(** * gpu-temp-watch: the hand-written ICO writers

    A shallow embedding of [create_icon.py] and [create_temperature_icons.py]
    and the properties of the byte streams they build.

    Python integers are [Z]; [bytes] and [bytearray] values are [list byte];
    an exception is a [Raise] result; the file system and the standard
    output, which [create_colored_ico] touches, are an explicit [World]
    threaded through a small state-and-error monad. *)

From Stdlib Require Import ZArith Lia List Bool String Ascii.
From Stdlib.Strings Require Import Byte.
From stdpp Require Import gmap strings list.
Import ListNotations.

Local Open Scope Z_scope.

(** ** Python values and exceptions *)

Abbreviation bytes := (list byte).

Inductive exn : Type :=
  | StructError   (* struct.error: a value does not fit its format code *)
  | ValueError.   (* bytearray.extend: "byte must be in range(0, 256)" *)

Inductive result (A : Type) : Type :=
  | Ok (a : A)
  | Raise (e : exn).
Arguments Ok {A} a.
Arguments Raise {A} e.

Definition bind {A B : Type} (r : result A) (k : A -> result B) : result B :=
  match r with
  | Ok a => k a
  | Raise e => Raise e
  end.

Declare Scope py_scope.
Delimit Scope py_scope with py.
Notation "x <- r ;; k" := (bind r (fun x => k))
  (at level 100, r at next level, right associativity) : py_scope.
Local Open Scope py_scope.

(** ** Bytes *)

Definition byte_of_Z (z : Z) : option byte :=
  if (0 <=? z) && (z <? 256) then Byte.of_N (Z.to_N z) else None.

Definition Z_of_byte (b : byte) : Z := Z.of_N (Byte.to_N b).

(** The low eight bits of [v], as a byte. *)
Definition low_byte (v : Z) : byte :=
  match byte_of_Z (v mod 256) with
  | Some b => b
  | None => x00
  end.

(** [n] bytes of [v], least significant first. *)
Fixpoint le_bytes (n : nat) (v : Z) : bytes :=
  match n with
  | O => []
  | S k => low_byte v :: le_bytes k (v / 256)
  end.

(** The unsigned integer a little-endian byte sequence stands for. *)
Fixpoint le_value (bs : bytes) : Z :=
  match bs with
  | [] => 0
  | b :: bs' => Z_of_byte b + 256 * le_value bs'
  end.

(** ** [struct.pack]

    Only what the two scripts use: the byte order mark [<] (little-endian,
    standard sizes, no padding) and the unsigned codes [B], [H] and [L]. *)

Inductive code : Type := B | H | L.

Definition code_size (c : code) : nat :=
  match c with
  | B => 1
  | H => 2
  | L => 4
  end.

Definition code_of_ascii (a : ascii) : option code :=
  if Ascii.eqb a "B" then Some B
  else if Ascii.eqb a "H" then Some H
  else if Ascii.eqb a "L" then Some L
  else None.

Fixpoint codes_of_string (s : string) : option (list code) :=
  match s with
  | EmptyString => Some []
  | String a s' =>
      match code_of_ascii a, codes_of_string s' with
      | Some c, Some cs => Some (c :: cs)
      | _, _ => None
      end
  end.

Definition parse_format (fmt : string) : option (list code) :=
  match fmt with
  | String "<" s => codes_of_string s
  | _ => None
  end.

(** One integer under one code: [struct.error] unless [0 <= v < 256^size]. *)
Definition pack_int (c : code) (v : Z) : result bytes :=
  if (0 <=? v) && (v <? 256 ^ Z.of_nat (code_size c))
  then Ok (le_bytes (code_size c) v)
  else Raise StructError.

(** [struct.error] also when the number of arguments is not the number of
    codes. *)
Fixpoint pack_codes (cs : list code) (vs : list Z) : result bytes :=
  match cs, vs with
  | [], [] => Ok []
  | c :: cs', v :: vs' =>
      b <- pack_int c v ;;
      bs <- pack_codes cs' vs' ;;
      Ok (b ++ bs)
  | _, _ => Raise StructError
  end.

Definition pack (fmt : string) (vs : list Z) : result bytes :=
  match parse_format fmt with
  | Some cs => pack_codes cs vs
  | None => Raise StructError
  end.

(** ** [range], [for] and [bytearray.extend] *)

Definition range (n : Z) : list Z := map Z.of_nat (seq 0 (Z.to_nat n)).

(** [for x in xs: body], the loop state passed along; an exception in the
    body leaves the loop. *)
Fixpoint for_each {S : Type} (xs : list Z) (body : Z -> S -> result S) (s : S)
  : result S :=
  match xs with
  | [] => Ok s
  | x :: xs' => s' <- body x s ;; for_each xs' body s'
  end.

Fixpoint bytes_of_ints (xs : list Z) : result bytes :=
  match xs with
  | [] => Ok []
  | x :: xs' =>
      match byte_of_Z x with
      | Some b => bs <- bytes_of_ints xs' ;; Ok (b :: bs)
      | None => Raise ValueError
      end
  end.

(** [buf.extend(xs)]: [ValueError] when an item is not in [range(0, 256)]. *)
Definition extend (buf : bytes) (xs : list Z) : result bytes :=
  bs <- bytes_of_ints xs ;; Ok (buf ++ bs).

(** ** The world outside: files and standard output

    [open(name, "wb")] followed by [write] replaces the file's contents;
    [print] appends a line.  This is an idealised file system: every name
    can be opened and written, and two names are two files.  The errors of
    the operating system (a missing directory, a full disk, a closed
    output) and names that are aliases of one file are outside it, so
    nothing below is stated about them; what is proved of a written file is
    what it holds when the write goes through. *)

Record World : Type := mkWorld {
  files : gmap string bytes;
  stdout : list string
}.

Definition Py (A : Type) : Type := World -> result A * World.

Definition lift {A : Type} (r : result A) : Py A := fun w => (r, w).

Definition and_then {A B : Type} (m : Py A) (k : A -> Py B) : Py B :=
  fun w =>
    match m w with
    | (Ok a, w') => k a w'
    | (Raise e, w') => (Raise e, w')
    end.

Notation "x <~ m ;; k" := (and_then m (fun x => k))
  (at level 100, m at next level, right associativity) : py_scope.
Notation "m ;;; k" := (and_then m (fun _ => k))
  (at level 100, right associativity) : py_scope.

Definition write_file (filename : string) (data : bytes) : Py unit :=
  fun w => (Ok tt, mkWorld (<[filename := data]> (files w)) (stdout w)).

Definition print (line : string) : Py unit :=
  fun w => (Ok tt, mkWorld (files w) (stdout w ++ [line])).

(** ** create_icon.py *)

Module CreateIcon.

(** Line 10. *)
Definition ico_header : result bytes := pack "<HHH" [0; 1; 1].

(** Lines 15-22, the locals [width] and [height] of lines 13-14 as
    arguments. *)
Definition dir_entry (width height : Z) : result bytes :=
  let colors := 0 in
  let reserved := 0 in
  let planes := 1 in
  let bpp := 32 in
  let size := 40 + (width * height * 4) in
  let offset := 22 in
  pack "<BBBBHHLL"
       [width; height; colors; reserved; planes; bpp; size; offset].

(** Lines 25-38; [bpp] is the local of line 18. *)
Definition bmp_header (width height : Z) : result bytes :=
  let bpp := 32 in
  let header_size := 40 in
  pack "<LLLHHLLLLLL"
       [header_size; width; height * 2; 1; bpp; 0; width * height * 4;
        0; 0; 0; 0].

(** Lines 45-59: the body of the inner loop. *)
Definition paint (x y : Z) (image_data : bytes) : result bytes :=
  if (x =? 8) && (y <? 12) then
    extend image_data [0; 0; 255; 255]
  else if existsb (Z.eqb x) [7; 9] && (y <? 12) then
    extend image_data [0; 0; 0; 255]
  else if ((6 <=? x) && (x <=? 10)) && ((12 <=? y) && (y <=? 14)) then
    extend image_data [0; 0; 255; 255]
  else if ((5 <=? x) && (x <=? 11)) && ((11 <=? y) && (y <=? 15)) then
    extend image_data [0; 0; 0; 255]
  else
    extend image_data [0; 0; 0; 0].

(** Lines 41-59. *)
Definition image_data (width height : Z) : result bytes :=
  for_each (range height)
    (fun y image_data => for_each (range width) (fun x => paint x y) image_data)
    [].

(** Lines 10-38 and 62 for any [width], [height] and [image_data]: the
    container writer on its own, whatever the pixel buffer is. *)
Definition encode (width height : Z) (image_data : bytes) : result bytes :=
  ico_header <- ico_header ;;
  dir_entry <- dir_entry width height ;;
  bmp_header <- bmp_header width height ;;
  Ok (ico_header ++ dir_entry ++ bmp_header ++ image_data).

Definition create_simple_ico : result bytes :=
  ico_header <- ico_header ;;
  let width := 16 in
  let height := 16 in
  dir_entry <- dir_entry width height ;;
  bmp_header <- bmp_header width height ;;
  image_data <- image_data width height ;;
  let ico_data := ico_header ++ dir_entry ++ bmp_header ++ image_data in
  Ok ico_data.

End CreateIcon.

(** ** create_temperature_icons.py *)

Module CreateTemperatureIcons.

(** Line 10. *)
Definition ico_header : result bytes := pack "<HHH" [0; 1; 1].

(** Lines 15-22. *)
Definition dir_entry (width height : Z) : result bytes :=
  let colors := 0 in
  let reserved := 0 in
  let planes := 1 in
  let bpp := 32 in
  let size := 40 + (width * height * 4) in
  let offset := 22 in
  pack "<BBBBHHLL"
       [width; height; colors; reserved; planes; bpp; size; offset].

(** Lines 25-38; [bpp] is the local of line 18. *)
Definition bmp_header (width height : Z) : result bytes :=
  let bpp := 32 in
  let header_size := 40 in
  pack "<LLLHHLLLLLL"
       [header_size; width; height * 2; 1; bpp; 0; width * height * 4;
        0; 0; 0; 0].

(** Lines 45-59. *)
Definition paint (color_bgra : list Z) (x y : Z) (image_data : bytes)
  : result bytes :=
  if (x =? 8) && (y <? 12) then
    extend image_data color_bgra
  else if existsb (Z.eqb x) [7; 9] && (y <? 12) then
    extend image_data [0; 0; 0; 255]
  else if ((6 <=? x) && (x <=? 10)) && ((12 <=? y) && (y <=? 14)) then
    extend image_data color_bgra
  else if ((5 <=? x) && (x <=? 11)) && ((11 <=? y) && (y <=? 15)) then
    extend image_data [0; 0; 0; 255]
  else
    extend image_data [0; 0; 0; 0].

(** Lines 41-59. *)
Definition image_data (color_bgra : list Z) (width height : Z) : result bytes :=
  for_each (range height)
    (fun y image_data =>
       for_each (range width) (fun x => paint color_bgra x y) image_data)
    [].

(** Lines 10-38 and 62 for any [width], [height] and [image_data]. *)
Definition encode (width height : Z) (image_data : bytes) : result bytes :=
  ico_header <- ico_header ;;
  dir_entry <- dir_entry width height ;;
  bmp_header <- bmp_header width height ;;
  Ok (ico_header ++ dir_entry ++ bmp_header ++ image_data).

(** Lines 9-62: the value of [ico_data] when line 62 has run. *)
Definition ico_data (color_bgra : list Z) : result bytes :=
  ico_header <- ico_header ;;
  let width := 16 in
  let height := 16 in
  dir_entry <- dir_entry width height ;;
  bmp_header <- bmp_header width height ;;
  image_data <- image_data color_bgra width height ;;
  Ok (ico_header ++ dir_entry ++ bmp_header ++ image_data).

Definition create_colored_ico (color_bgra : list Z) (filename : string)
  : Py unit :=
  ico_data <~ lift (ico_data color_bgra) ;;
  write_file filename ico_data ;;;
  print ("Created " ++ filename).

End CreateTemperatureIcons.

(** ** Reading a byte stream back

    [slice i j s] is Python's [s[i:j]]; the [uN_at] readers take an
    unsigned little-endian field of N bits at a byte offset. *)

Definition slice (i j : nat) (s : bytes) : bytes := firstn (j - i) (skipn i s).

Definition u8_at (off : nat) (s : bytes) : Z := le_value (slice off (off + 1) s).
Definition u16_at (off : nat) (s : bytes) : Z := le_value (slice off (off + 2) s).
Definition u32_at (off : nat) (s : bytes) : Z := le_value (slice off (off + 4) s).

(** The [i]-th four-byte pixel of a pixel buffer. *)
Definition pixel_at (i : nat) (px : bytes) : bytes := slice (4 * i) (4 * i + 4) px.

Definition black : bytes := [x00; x00; x00; xff].
Definition transparent : bytes := [x00; x00; x00; x00].
Definition red : bytes := [x00; x00; xff; xff].

(** A colour argument that is what its name says: four integers, each a
    byte. *)
Definition is_bgra (color_bgra : list Z) : bool :=
  (length color_bgra =? 4)%nat
  && forallb (fun z => (0 <=? z) && (z <? 256)) color_bgra.

(** The file a run left under [filename], if any. *)
Definition written (filename : string) (w : World) : option bytes :=
  files w !! filename.

(** The sixty-two header bytes in closed form, for [width] and [height]
    that fit a byte. *)
Definition headers (width height : Z) : bytes :=
  [x00; x00; x01; x00; x01; x00]
  ++ [low_byte width; low_byte height; x00; x00; x01; x00; x20; x00]
  ++ le_bytes 4 (40 + width * height * 4) ++ [x16; x00; x00; x00]
  ++ [x28; x00; x00; x00] ++ le_bytes 4 width ++ le_bytes 4 (height * 2)
  ++ [x01; x00; x20; x00; x00; x00; x00; x00]
  ++ le_bytes 4 (width * height * 4)
  ++ repeat x00 16.

(** ** A standard reader

    Modelled from the spec: the repository has no ICO reader; the spec's
    round trip goes through "a standard ICO-capable image reader".  This one
    reads the first image of an icon file as the ICO/BMP format lays it out.
    The directory entry gives the offset of the image data; the data start
    with a bitmap info header of [biSize] bytes, whose height counts the
    colour rows and the mask rows together; the colour rows follow, the
    bottom row of the image first.  Only 32-bit uncompressed images are
    read; the mask that may follow the colour rows is not read, since 32-bit
    pixels carry their alpha.  The image comes back with its rows from top
    to bottom. *)

Record IcoImage : Type := mkIcoImage {
  width : Z;
  height : Z;
  pixels : bytes
}.

(** The first [count] rows of [n] bytes each of [data]. *)
Fixpoint rows (count n : nat) (data : bytes) : list bytes :=
  match count with
  | O => []
  | S count' => firstn n data :: rows count' n (skipn n data)
  end.

Definition decode (s : bytes) : option IcoImage :=
  let offset := Z.to_nat (u32_at 18 s) in
  let biSize := u32_at offset s in
  let biWidth := u32_at (offset + 4) s in
  let biHeight := u32_at (offset + 8) s in
  let biBitCount := u16_at (offset + 14) s in
  let biCompression := u32_at (offset + 16) s in
  let h := biHeight / 2 in
  let data := skipn (offset + Z.to_nat biSize) s in
  if (u16_at 0 s =? 0) && (u16_at 2 s =? 1) && (1 <=? u16_at 4 s)
     && (biBitCount =? 32) && (biCompression =? 0)
     && (biWidth * h * 4 <=? Z.of_nat (length data))
  then
    Some (mkIcoImage biWidth h
            (concat (rev (rows (Z.to_nat h) (Z.to_nat (biWidth * 4)) data))))
  else None.

(** ** The thermometer pattern in closed form

    What the two nested loops append for the pixel in column [x] of row
    [y], with the tube and bulb colour already a byte sequence, and the
    whole buffer they leave. *)

Definition pattern_pixel (color : bytes) (x y : Z) : bytes :=
  if (x =? 8) && (y <? 12) then color
  else if existsb (Z.eqb x) [7; 9] && (y <? 12) then black
  else if ((6 <=? x) && (x <=? 10)) && ((12 <=? y) && (y <=? 14)) then color
  else if ((5 <=? x) && (x <=? 11)) && ((11 <=? y) && (y <=? 15)) then black
  else transparent.

Definition pattern (color : bytes) (width height : Z) : bytes :=
  flat_map (fun y => flat_map (fun x => pattern_pixel color x y) (range width))
           (range height).

(** A buffer made of whole four-byte pixels, each of them satisfying [P]. *)
Definition pixels_all (P : bytes -> Prop) (px : bytes) : Prop :=
  exists ps : list bytes,
    px = concat ps /\ Forall (fun p => length p = 4%nat /\ P p) ps.

Definition fits_byte (v : Z) : Prop := 0 <= v <= 255.

(** A buffer of 256 pixels that alternates transparent and opaque red. *)
Definition alternating : bytes := concat (repeat (transparent ++ red) 128).

(** ** scripts/create_icons.py

    The script draws with an imaging library and scales its geometry in
    floating point; the one computation of [create_thermometer_icon] that
    needs neither is the shade of the mercury level, line 62. *)

Module CreateIcons.

(** [enumerate(xs)], counting from [start]. *)
Fixpoint enumerate_from {A : Type} (start : Z) (xs : list A) : list (Z * A) :=
  match xs with
  | [] => []
  | x :: xs' => (start, x) :: enumerate_from (start + 1) xs'
  end.

Definition enumerate {A : Type} (xs : list A) : list (Z * A) :=
  enumerate_from 0 xs.

(** Line 62:
    [tuple(min(255, c + 20) if i < 3 else c for i, c in enumerate(color))]. *)
Definition mercury_color (color : list Z) : list Z :=
  map (fun ic : Z * Z =>
         let (i, c) := ic in if i <? 3 then Z.min 255 (c + 20) else c)
      (enumerate color).

End CreateIcons.

(** Every item of a colour is a byte. *)
Definition all_bytes (color : list Z) : bool :=
  forallb (fun z => (0 <=? z) && (z <? 256)) color.

(** * Facts about the runtime model *)

(** The model on small inputs. *)

Example pack_icon_header :
  pack "<HHH" [0; 1; 1] = Ok [x00; x00; x01; x00; x01; x00].
Proof. reflexivity. Qed.

Example pack_little_endian : pack "<L" [1064] = Ok [x28; x04; x00; x00].
Proof. reflexivity. Qed.

Example pack_too_large : pack "<B" [256] = Raise StructError.
Proof. reflexivity. Qed.

Example pack_negative : pack "<L" [-1] = Raise StructError.
Proof. reflexivity. Qed.

Example extend_not_a_byte : extend [x01] [0; 256] = Raise ValueError.
Proof. reflexivity. Qed.

Example range_3 : range 3 = [0; 1; 2].
Proof. reflexivity. Qed.

(** Row 0 of the icon: transparent up to column 6, outline at 7, tube at 8;
    row 13: bulb from column 6. *)
Example simple_pixels :
  match CreateIcon.image_data 16 16 with
  | Ok px => [pixel_at 0 px; pixel_at 7 px; pixel_at 8 px;
              pixel_at (16 * 13 + 5) px; pixel_at (16 * 13 + 6) px]
  | Raise _ => []
  end
  = [transparent; black; red; black; red].
Proof. reflexivity. Qed.

(** A colour of three components is extended as it is: each of the 27 tube
    and bulb pixels is then one byte short. *)
Example three_component_colour :
  match CreateTemperatureIcons.ico_data [0; 0; 255] with
  | Ok s => Some (length s)
  | Raise _ => None
  end
  = Some 1059%nat.
Proof. reflexivity. Qed.

Example colour_not_a_byte :
  CreateTemperatureIcons.ico_data [0; 0; 256; 255] = Raise ValueError.
Proof. reflexivity. Qed.


Lemma bind_Ok {A B : Type} (r : result A) (k : A -> result B) (b : B) :
  bind r k = Ok b <-> exists a, r = Ok a /\ k a = Ok b.
Proof.
  destruct r as [a|e]; simpl; split.
  - intros Hk. exists a. auto.
  - intros (a' & Ha & Hk). inversion Ha. subst. exact Hk.
  - discriminate.
  - intros (a' & Ha & _). discriminate.
Qed.

Lemma byte_of_Z_Some (z : Z) (b : byte) :
  byte_of_Z z = Some b <-> 0 <= z < 256 /\ Z_of_byte b = z.
Proof.
  unfold byte_of_Z, Z_of_byte.
  destruct (Z.leb_spec 0 z), (Z.ltb_spec z 256); simpl;
    try (split; [discriminate | lia]).
  rewrite Byte.to_of_N_iff. split.
  - intros Hb. rewrite Hb, Z2N.id; lia.
  - intros [_ <-]. now rewrite N2Z.id.
Qed.

Lemma Z_of_byte_range (b : byte) : 0 <= Z_of_byte b < 256.
Proof.
  unfold Z_of_byte. pose proof (Byte.to_N_bounded b). lia.
Qed.

Lemma byte_of_Z_of_byte (b : byte) : byte_of_Z (Z_of_byte b) = Some b.
Proof.
  apply byte_of_Z_Some. split; [apply Z_of_byte_range | reflexivity].
Qed.

Lemma byte_of_Z_in_range (z : Z) :
  0 <= z < 256 -> exists b, byte_of_Z z = Some b /\ Z_of_byte b = z.
Proof.
  intros Hz. destruct (byte_of_Z z) as [b|] eqn:E.
  - exists b. split; [reflexivity | now apply byte_of_Z_Some in E].
  - exfalso. unfold byte_of_Z in E.
    destruct (Z.leb_spec 0 z), (Z.ltb_spec z 256); simpl in E; try lia.
    apply Byte.of_N_None_iff in E. lia.
Qed.

Lemma Z_of_low_byte (v : Z) : Z_of_byte (low_byte v) = v mod 256.
Proof.
  unfold low_byte.
  destruct (byte_of_Z_in_range (v mod 256)) as (b & -> & Hb); [|exact Hb].
  apply Z.mod_pos_bound. lia.
Qed.

Lemma length_le_bytes (n : nat) (v : Z) : length (le_bytes n v) = n.
Proof.
  revert v. induction n as [|n IH]; intros v; simpl; [|rewrite IH]; reflexivity.
Qed.

Lemma le_value_le_bytes (n : nat) (v : Z) :
  0 <= v < 256 ^ Z.of_nat n -> le_value (le_bytes n v) = v.
Proof.
  revert v. induction n as [|n IH]; intros v Hv.
  - simpl in *. lia.
  - cbn [le_bytes le_value]. rewrite Z_of_low_byte, IH.
    + pose proof (Z.div_mod v 256). lia.
    + rewrite Nat2Z.inj_succ, Z.pow_succ_r in Hv by lia.
      split; [apply Z.div_pos; lia | apply Z.div_lt_upper_bound; lia].
Qed.

Lemma pack_int_Ok (c : code) (v : Z) (b : bytes) :
  pack_int c v = Ok b <->
  0 <= v < 256 ^ Z.of_nat (code_size c) /\ b = le_bytes (code_size c) v.
Proof.
  unfold pack_int.
  destruct (Z.leb_spec 0 v), (Z.ltb_spec v (256 ^ Z.of_nat (code_size c)));
    simpl; split; try discriminate; try lia.
  - intros [= <-]. auto.
  - intros [_ ->]. reflexivity.
Qed.

Lemma pack_int_fits (c : code) (v : Z) :
  0 <= v < 256 ^ Z.of_nat (code_size c) ->
  pack_int c v = Ok (le_bytes (code_size c) v).
Proof. intros Hv. apply pack_int_Ok. auto. Qed.

(** ** The container writer in closed form *)

Lemma pack_headers_fits (width height : Z) :
  fits_byte width -> fits_byte height ->
  CreateIcon.ico_header = Ok (firstn 6 (headers width height)) /\
  CreateIcon.dir_entry width height
    = Ok (firstn 16 (skipn 6 (headers width height))) /\
  CreateIcon.bmp_header width height = Ok (skipn 22 (headers width height)).
Proof.
  unfold fits_byte. intros Hw Hh.
  assert (Hs : 0 <= width * height <= 255 * 255) by nia.
  split; [reflexivity|].
  unfold CreateIcon.dir_entry, CreateIcon.bmp_header, pack.
  split.
  - change (parse_format "<BBBBHHLL") with (Some [B; B; B; B; H; H; L; L]).
    cbn [pack_codes].
    rewrite !pack_int_fits by (cbn; lia).
    reflexivity.
  - change (parse_format "<LLLHHLLLLLL")
      with (Some [L; L; L; H; H; L; L; L; L; L; L]).
    cbn [pack_codes].
    rewrite !pack_int_fits by (cbn; lia).
    reflexivity.
Qed.

Lemma encode_fits (width height : Z) (image_data : bytes) :
  fits_byte width -> fits_byte height ->
  CreateIcon.encode width height image_data
  = Ok (headers width height ++ image_data).
Proof.
  intros Hw Hh.
  destruct (pack_headers_fits width height Hw Hh) as (Hi & Hd & Hb).
  unfold CreateIcon.encode. rewrite Hi, Hd, Hb. reflexivity.
Qed.

Lemma encode_Ok_fits (width height : Z) (image_data s : bytes) :
  CreateIcon.encode width height image_data = Ok s ->
  fits_byte width /\ fits_byte height.
Proof.
  unfold CreateIcon.encode. intros He.
  apply bind_Ok in He as (i & _ & He).
  apply bind_Ok in He as (d & Hd & _).
  unfold CreateIcon.dir_entry, pack in Hd.
  change (parse_format "<BBBBHHLL") with (Some [B; B; B; B; H; H; L; L]) in Hd.
  cbn [pack_codes] in Hd.
  apply bind_Ok in Hd as (bw & Hbw & Hd).
  apply bind_Ok in Hd as (rest & Hd & _).
  apply bind_Ok in Hd as (bh & Hbh & _).
  apply pack_int_Ok in Hbw as [Hbw _]. apply pack_int_Ok in Hbh as [Hbh _].
  unfold fits_byte. cbn in Hbw, Hbh. lia.
Qed.

Lemma encode_Ok (width height : Z) (image_data s : bytes) :
  CreateIcon.encode width height image_data = Ok s <->
  fits_byte width /\ fits_byte height /\ s = headers width height ++ image_data.
Proof.
  split.
  - intros He. destruct (encode_Ok_fits _ _ _ _ He) as [Hw Hh].
    rewrite encode_fits in He by assumption. inversion He. auto.
  - intros (Hw & Hh & ->). now apply encode_fits.
Qed.

Lemma pack_raises (fmt : string) (vs : list Z) (e : exn) :
  pack fmt vs = Raise e -> e = StructError.
Proof.
  unfold pack. destruct (parse_format fmt) as [cs|]; [|congruence].
  revert vs e. induction cs as [|c cs IH]; intros [|v vs] e; simpl;
    try congruence.
  unfold pack_int. destruct (_ && _); simpl; [|congruence].
  destruct (pack_codes cs vs) as [bs|e'] eqn:Hcs; simpl; [discriminate|].
  intros [= <-]. now apply (IH vs).
Qed.

Lemma encode_raises (width height : Z) (image_data : bytes) (e : exn) :
  CreateIcon.encode width height image_data = Raise e -> e = StructError.
Proof.
  unfold CreateIcon.encode, CreateIcon.ico_header, CreateIcon.dir_entry,
    CreateIcon.bmp_header.
  cbv zeta.
  repeat match goal with
         | |- context [pack ?f ?vs] =>
             let Hp := fresh "Hp" in
             destruct (pack f vs) eqn:Hp; cbn [bind];
             [|apply pack_raises in Hp; congruence]
         end.
  discriminate.
Qed.

(** The two scripts carry the same container writer. *)
Lemma encode_same :
  CreateTemperatureIcons.encode = CreateIcon.encode.
Proof. reflexivity. Qed.

Lemma length_headers (width height : Z) :
  length (headers width height) = 62%nat.
Proof. reflexivity. Qed.

(** ** The loops in closed form *)

Lemma bytes_of_ints_image (bs : bytes) :
  bytes_of_ints (map Z_of_byte bs) = Ok bs.
Proof.
  induction bs as [|b bs IH]; simpl; [reflexivity|].
  now rewrite byte_of_Z_of_byte, IH.
Qed.

Lemma bytes_of_ints_Ok (xs : list Z) (bs : bytes) :
  bytes_of_ints xs = Ok bs <-> xs = map Z_of_byte bs.
Proof.
  split; [|intros ->; apply bytes_of_ints_image].
  revert bs. induction xs as [|x xs IH]; intros bs; simpl.
  - intros [= <-]. reflexivity.
  - destruct (byte_of_Z x) as [b|] eqn:Eb; [|discriminate].
    intros Hb. apply bind_Ok in Hb as (bs' & Hbs' & [= <-]).
    apply byte_of_Z_Some in Eb as [_ <-]. simpl. f_equal. now apply IH.
Qed.

Lemma bytes_of_ints_total (xs : list Z) :
  forallb (fun z => (0 <=? z) && (z <? 256)) xs = true ->
  exists bs, bytes_of_ints xs = Ok bs /\ length bs = length xs.
Proof.
  induction xs as [|x xs IH]; simpl.
  - exists []. auto.
  - intros [Hx Hxs]%andb_true_iff. destruct (IH Hxs) as (bs & -> & Hlen).
    destruct (byte_of_Z_in_range x) as (b & -> & _); [lia|].
    exists (b :: bs). simpl. auto.
Qed.

Lemma bytes_of_ints_raises (xs : list Z) (e : exn) :
  bytes_of_ints xs = Raise e -> e = ValueError.
Proof.
  induction xs as [|x xs IH]; simpl; [discriminate|].
  destruct (byte_of_Z x); [|now intros [= <-]].
  destruct (bytes_of_ints xs); simpl; [discriminate|].
  intros [= <-]. now apply IH.
Qed.

Lemma for_each_appends (f : Z -> bytes) (body : Z -> bytes -> result bytes) :
  (forall x buf, body x buf = Ok (buf ++ f x)) ->
  forall xs buf, for_each xs body buf = Ok (buf ++ flat_map f xs).
Proof.
  intros Hbody xs. induction xs as [|x xs IH]; intros buf; simpl.
  - now rewrite app_nil_r.
  - rewrite Hbody. simpl. rewrite IH. now rewrite <- app_assoc.
Qed.

Lemma for_each_app {S : Type} (xs ys : list Z) (body : Z -> S -> result S) (s : S) :
  for_each (xs ++ ys) body s = (s' <- for_each xs body s ;; for_each ys body s').
Proof.
  revert s. induction xs as [|x xs IH]; intros s; simpl; [reflexivity|].
  destruct (body x s); simpl; [apply IH | reflexivity].
Qed.

Lemma extend_Ok (buf : bytes) (xs : list Z) (bs : bytes) :
  bytes_of_ints xs = Ok bs -> extend buf xs = Ok (buf ++ bs).
Proof. unfold extend. now intros ->. Qed.

Lemma simple_paint_appends (x y : Z) (buf : bytes) :
  CreateIcon.paint x y buf = Ok (buf ++ pattern_pixel red x y).
Proof.
  unfold CreateIcon.paint, pattern_pixel.
  repeat match goal with |- context [if ?c then _ else _] => destruct c end;
    reflexivity.
Qed.

Lemma simple_image_data_closed (width height : Z) :
  CreateIcon.image_data width height = Ok (pattern red width height).
Proof.
  unfold CreateIcon.image_data, pattern.
  apply (for_each_appends
           (fun y => flat_map (fun x => pattern_pixel red x y) (range width))).
  intros y buf. apply for_each_appends. intros x buf'.
  apply simple_paint_appends.
Qed.

Lemma colored_paint_appends (color_bgra : list Z) (color : bytes) (x y : Z)
    (buf : bytes) :
  bytes_of_ints color_bgra = Ok color ->
  CreateTemperatureIcons.paint color_bgra x y buf
  = Ok (buf ++ pattern_pixel color x y).
Proof.
  intros Hc. unfold CreateTemperatureIcons.paint, pattern_pixel.
  repeat match goal with |- context [if ?c then _ else _] => destruct c end;
    (apply extend_Ok; assumption) || reflexivity.
Qed.

Lemma colored_image_data_closed (color_bgra : list Z) (color : bytes)
    (width height : Z) :
  bytes_of_ints color_bgra = Ok color ->
  CreateTemperatureIcons.image_data color_bgra width height
  = Ok (pattern color width height).
Proof.
  intros Hc. unfold CreateTemperatureIcons.image_data, pattern.
  apply (for_each_appends
           (fun y => flat_map (fun x => pattern_pixel color x y) (range width))).
  intros y buf. apply for_each_appends. intros x buf'.
  now apply colored_paint_appends.
Qed.

(** ** The two icon builders in closed form *)

Lemma create_simple_ico_closed :
  CreateIcon.create_simple_ico = Ok (headers 16 16 ++ pattern red 16 16).
Proof.
  unfold CreateIcon.create_simple_ico.
  destruct (pack_headers_fits 16 16) as (-> & -> & ->);
    [unfold fits_byte; lia ..|].
  cbn [bind]. rewrite simple_image_data_closed. reflexivity.
Qed.

Lemma ico_data_closed (color_bgra : list Z) (color : bytes) :
  bytes_of_ints color_bgra = Ok color ->
  CreateTemperatureIcons.ico_data color_bgra
  = Ok (headers 16 16 ++ pattern color 16 16).
Proof.
  intros Hc. unfold CreateTemperatureIcons.ico_data.
  change CreateTemperatureIcons.ico_header with CreateIcon.ico_header.
  change CreateTemperatureIcons.dir_entry with CreateIcon.dir_entry.
  change CreateTemperatureIcons.bmp_header with CreateIcon.bmp_header.
  destruct (pack_headers_fits 16 16) as (-> & -> & ->);
    [unfold fits_byte; lia ..|].
  cbn [bind]. rewrite (colored_image_data_closed _ _ _ _ Hc). reflexivity.
Qed.

Lemma for_each_raises {S : Type} (xs ys : list Z) (x : Z)
    (body : Z -> S -> result S) (s s1 : S) (e : exn) :
  for_each xs body s = Ok s1 -> body x s1 = Raise e ->
  for_each (xs ++ x :: ys) body s = Raise e.
Proof.
  intros Hxs Hx. rewrite for_each_app, Hxs. simpl. now rewrite Hx.
Qed.

(** A colour with an item outside [range(0, 256)] stops the first row at
    its ninth pixel. *)
Lemma image_data_raises (color_bgra : list Z) (e : exn) :
  bytes_of_ints color_bgra = Raise e ->
  CreateTemperatureIcons.image_data color_bgra 16 16 = Raise ValueError.
Proof.
  intros Hc. rewrite (bytes_of_ints_raises _ _ Hc) in Hc.
  unfold CreateTemperatureIcons.image_data.
  change (range 16) with (0 :: map Z.of_nat (seq 1 15)) at 1.
  cbn [for_each].
  change (range 16)
    with (map Z.of_nat (seq 0 8) ++ 8 :: map Z.of_nat (seq 9 7)) at 1.
  erewrite for_each_raises; [reflexivity | reflexivity |].
  unfold CreateTemperatureIcons.paint, extend.
  change ((8 =? 8) && (0 <? 12)) with true. cbv iota.
  now rewrite Hc.
Qed.

Lemma ico_data_raises (color_bgra : list Z) (e : exn) :
  bytes_of_ints color_bgra = Raise e ->
  CreateTemperatureIcons.ico_data color_bgra = Raise ValueError.
Proof.
  intros Hc. unfold CreateTemperatureIcons.ico_data.
  change CreateTemperatureIcons.ico_header with CreateIcon.ico_header.
  change CreateTemperatureIcons.dir_entry with CreateIcon.dir_entry.
  change CreateTemperatureIcons.bmp_header with CreateIcon.bmp_header.
  destruct (pack_headers_fits 16 16) as (-> & -> & ->);
    [unfold fits_byte; lia ..|].
  cbn [bind]. now rewrite (image_data_raises _ _ Hc).
Qed.

(** What a call of [create_colored_ico] does to the world. *)
Lemma create_colored_ico_Ok (color_bgra : list Z) (color : bytes)
    (filename : string) (w : World) :
  bytes_of_ints color_bgra = Ok color ->
  CreateTemperatureIcons.create_colored_ico color_bgra filename w
  = (Ok tt,
     mkWorld (<[filename := headers 16 16 ++ pattern color 16 16]> (files w))
             (stdout w ++ [("Created " ++ filename)%string])).
Proof.
  intros Hc. unfold CreateTemperatureIcons.create_colored_ico, and_then, lift.
  now rewrite (ico_data_closed _ _ Hc).
Qed.

(** ** Buffers of whole pixels *)

Lemma pixels_all_nil (P : bytes -> Prop) : pixels_all P [].
Proof. exists []. split; [reflexivity | constructor]. Qed.

Lemma pixels_all_one (P : bytes -> Prop) (p : bytes) :
  length p = 4%nat -> P p -> pixels_all P p.
Proof.
  intros Hl Hp. exists [p]. split.
  - simpl. now rewrite app_nil_r.
  - repeat constructor; assumption.
Qed.

Lemma pixels_all_app (P : bytes -> Prop) (a b : bytes) :
  pixels_all P a -> pixels_all P b -> pixels_all P (a ++ b).
Proof.
  intros (pa & -> & Ha) (pb & -> & Hb). exists (pa ++ pb). split.
  - now rewrite concat_app.
  - apply Forall_app. auto.
Qed.

Lemma pixels_all_flat_map {A : Type} (P : bytes -> Prop) (f : A -> bytes)
    (xs : list A) :
  (forall x, pixels_all P (f x)) -> pixels_all P (flat_map f xs).
Proof.
  intros Hf. induction xs as [|x xs IH]; simpl.
  - apply pixels_all_nil.
  - apply pixels_all_app; auto.
Qed.

Lemma pixel_at_cons (p rest : bytes) (i : nat) :
  length p = 4%nat ->
  pixel_at 0 (p ++ rest) = p /\
  pixel_at (S i) (p ++ rest) = pixel_at i rest.
Proof.
  intros Hl. unfold pixel_at, slice.
  destruct p as [|b0 [|b1 [|b2 [|b3 [|]]]]]; try discriminate. split.
  - reflexivity.
  - replace (4 * S i)%nat with (4 + 4 * i)%nat by lia.
    replace (4 + 4 * i + 4 - (4 + 4 * i))%nat with 4%nat by lia.
    replace (4 * i + 4 - 4 * i)%nat with 4%nat by lia.
    reflexivity.
Qed.

Lemma pixels_all_at (P : bytes -> Prop) (px : bytes) (i : nat) :
  pixels_all P px -> (4 * i < length px)%nat ->
  length (pixel_at i px) = 4%nat /\ P (pixel_at i px).
Proof.
  intros (ps & -> & Hps). revert i.
  induction Hps as [|p ps [Hl Hp] Hps IH]; intros i Hi; simpl in *; [lia|].
  destruct i as [|i].
  - rewrite (proj1 (pixel_at_cons p (concat ps) 0 Hl)). auto.
  - rewrite (proj2 (pixel_at_cons p (concat ps) i Hl)).
    apply IH. rewrite length_app, Hl in Hi. lia.
Qed.

Lemma length_pattern_pixel (color : bytes) (x y : Z) :
  length color = 4%nat -> length (pattern_pixel color x y) = 4%nat.
Proof.
  intros Hl. unfold pattern_pixel.
  repeat match goal with |- context [if ?c then _ else _] => destruct c end;
    assumption || reflexivity.
Qed.

Lemma pattern_pixel_cases (color : bytes) (x y : Z) :
  pattern_pixel color x y = color \/
  pattern_pixel color x y = black \/
  pattern_pixel color x y = transparent.
Proof.
  unfold pattern_pixel.
  repeat match goal with |- context [if ?c then _ else _] => destruct c end;
    auto.
Qed.

Lemma pattern_pixels_all (color : bytes) (width height : Z) :
  length color = 4%nat ->
  pixels_all (fun p => p = color \/ p = black \/ p = transparent)
             (pattern color width height).
Proof.
  intros Hl. unfold pattern.
  apply pixels_all_flat_map. intros y.
  apply pixels_all_flat_map. intros x.
  apply pixels_all_one.
  - now apply length_pattern_pixel.
  - apply pattern_pixel_cases.
Qed.

Lemma length_range (n : Z) : length (range n) = Z.to_nat n.
Proof. unfold range. now rewrite length_map, length_seq. Qed.

Lemma length_flat_map_const {A : Type} (f : A -> bytes) (xs : list A) (n : nat) :
  (forall x, length (f x) = n) -> length (flat_map f xs) = (length xs * n)%nat.
Proof.
  intros Hf. induction xs as [|x xs IH]; simpl; [reflexivity|].
  now rewrite length_app, Hf, IH.
Qed.

Lemma length_pattern (color : bytes) (width height : Z) :
  length color = 4%nat ->
  length (pattern color width height)
  = (Z.to_nat height * (Z.to_nat width * 4))%nat.
Proof.
  intros Hl. unfold pattern.
  rewrite (length_flat_map_const _ _ (Z.to_nat width * 4)), length_range;
    [reflexivity|].
  intros y. rewrite (length_flat_map_const _ _ 4), length_range; [reflexivity|].
  intros x. now apply length_pattern_pixel.
Qed.

(** ** Reading the header fields back *)

Lemma header_fields (width height : Z) (image_data : bytes) :
  fits_byte width -> fits_byte height ->
  let s := headers width height ++ image_data in
  u8_at 6 s = width /\ u8_at 7 s = height /\
  u32_at 14 s = 40 + width * height * 4 /\ u32_at 18 s = 22 /\
  u32_at 26 s = width /\ u32_at 30 s = 2 * height /\
  u32_at 42 s = width * height * 4.
Proof.
  unfold fits_byte. intros Hw Hh. cbv zeta.
  assert (Hs : 0 <= width * height <= 255 * 255) by nia.
  unfold u8_at, u16_at, u32_at, slice, headers.
  cbn [skipn firstn app Nat.add Nat.sub le_bytes].
  repeat split.
  - apply (le_value_le_bytes 1). lia.
  - apply (le_value_le_bytes 1). lia.
  - apply (le_value_le_bytes 4). lia.
  - apply (le_value_le_bytes 4). lia.
  - rewrite Z.mul_comm. apply (le_value_le_bytes 4). lia.
  - apply (le_value_le_bytes 4). lia.
Qed.

Lemma decode_headers (width height : Z) (image_data : bytes) :
  fits_byte width -> fits_byte height ->
  Z.of_nat (length image_data) = width * height * 4 ->
  decode (headers width height ++ image_data)
  = Some (mkIcoImage width height
            (concat (rev (rows (Z.to_nat height) (Z.to_nat (width * 4))
                               image_data)))).
Proof.
  intros Hw Hh Hlen.
  destruct (header_fields width height image_data Hw Hh)
    as (_ & _ & _ & F18 & F26 & F30 & _).
  cbv zeta in *. unfold decode.
  set (s := headers width height ++ image_data) in *.
  rewrite F18. change (Z.to_nat 22) with 22%nat.
  change (22 + 4)%nat with 26%nat. change (22 + 8)%nat with 30%nat.
  change (22 + 14)%nat with 36%nat. change (22 + 16)%nat with 38%nat.
  rewrite F26, F30.
  change (u32_at 22 s) with 40. change (u16_at 0 s) with 0.
  change (u16_at 2 s) with 1. change (u16_at 4 s) with 1.
  change (u16_at 36 s) with 32. change (u32_at 38 s) with 0.
  change (skipn (22 + Z.to_nat 40) s) with image_data.
  replace (2 * height / 2) with height
    by (rewrite Z.mul_comm, Z.div_mul; lia).
  rewrite Hlen, !Z.leb_refl. reflexivity.
Qed.

(** ** Colours and runs *)

Lemma is_bgra_bytes (color_bgra : list Z) :
  is_bgra color_bgra = true ->
  exists color, bytes_of_ints color_bgra = Ok color /\ length color = 4%nat.
Proof.
  unfold is_bgra. intros [Hlen Hall]%andb_true_iff.
  apply Nat.eqb_eq in Hlen.
  destruct (bytes_of_ints_total _ Hall) as (color & Hc & Hl).
  exists color. split; [exact Hc | congruence].
Qed.

Lemma ico_data_Ok (color_bgra : list Z) (s : bytes) :
  CreateTemperatureIcons.ico_data color_bgra = Ok s ->
  exists color,
    bytes_of_ints color_bgra = Ok color /\
    s = headers 16 16 ++ pattern color 16 16.
Proof.
  intros Hs. destruct (bytes_of_ints color_bgra) as [color|e] eqn:Hc.
  - exists color. rewrite (ico_data_closed _ _ Hc) in Hs.
    inversion Hs. auto.
  - rewrite (ico_data_raises _ _ Hc) in Hs. discriminate.
Qed.

Lemma written_insert (filename : string) (s : bytes) (fs : gmap string bytes)
    (out : list string) :
  written filename (mkWorld (<[filename := s]> fs) out) = Some s.
Proof. unfold written. simpl. apply lookup_insert_eq. Qed.

Lemma fits_16 : fits_byte 16.
Proof. unfold fits_byte. lia. Qed.

Lemma Z_of_byte_inj (a b : byte) : Z_of_byte a = Z_of_byte b -> a = b.
Proof.
  intros Hab. pose proof (byte_of_Z_of_byte a) as Ha.
  rewrite Hab, byte_of_Z_of_byte in Ha. congruence.
Qed.

Lemma alpha_of_bytes (color_bgra : list Z) (color : bytes) :
  bytes_of_ints color_bgra = Ok color ->
  nth 3 color_bgra 0 = 255 -> nth 3 color x00 = xff.
Proof.
  intros Hc%bytes_of_ints_Ok Ha. subst color_bgra.
  change 0 with (Z_of_byte x00) in Ha. rewrite map_nth in Ha.
  now apply Z_of_byte_inj.
Qed.

(** * The claims *)

(** C1: for every width and height in 1..255 and every pixel buffer of
    exactly width*height*4 bytes the container writer (the same in both
    scripts) returns a stream of exactly 62 + width*height*4 bytes; for the
    fixed 16x16 case [create_simple_ico] returns, and [create_colored_ico]
    (given a colour of four bytes) builds and writes, exactly 1086 bytes. *)
Theorem C1_output_length :
  (forall (width height : Z) (pixels : bytes),
     1 <= width <= 255 -> 1 <= height <= 255 ->
     Z.of_nat (length pixels) = width * height * 4 ->
     exists s,
       CreateIcon.encode width height pixels = Ok s /\
       CreateTemperatureIcons.encode width height pixels = Ok s /\
       Z.of_nat (length s) = 62 + width * height * 4) /\
  (exists s, CreateIcon.create_simple_ico = Ok s /\ length s = 1086%nat) /\
  (forall (color_bgra : list Z) (filename : string) (w : World),
     is_bgra color_bgra = true ->
     exists s,
       CreateTemperatureIcons.ico_data color_bgra = Ok s /\
       written filename
         (snd (CreateTemperatureIcons.create_colored_ico color_bgra filename w))
       = Some s /\
       length s = 1086%nat).
Proof.
  repeat apply conj.
  - intros width height pixels Hw Hh Hlen.
    exists (headers width height ++ pixels).
    rewrite encode_same, encode_fits by (unfold fits_byte; lia).
    repeat split. rewrite length_app, length_headers. lia.
  - exists (headers 16 16 ++ pattern red 16 16).
    split; [apply create_simple_ico_closed|].
    rewrite length_app, length_headers, length_pattern; reflexivity.
  - intros color_bgra filename w Hc.
    destruct (is_bgra_bytes _ Hc) as (color & Hcolor & Hl).
    exists (headers 16 16 ++ pattern color 16 16).
    rewrite (create_colored_ico_Ok _ _ filename w Hcolor),
      (ico_data_closed _ _ Hcolor).
    repeat split; [apply written_insert|].
    rewrite length_app, length_headers, length_pattern by exact Hl.
    reflexivity.
Qed.

Lemma C1_output_length_witness :
  Z.of_nat (length (repeat x00 24)) = 2 * 3 * 4 /\
  is_bgra [0; 255; 0; 255] = true /\
  (exists s, CreateIcon.encode 2 3 (repeat x00 24) = Ok s /\
             Z.of_nat (length s) = 62 + 2 * 3 * 4) /\
  (exists s, CreateTemperatureIcons.ico_data [0; 255; 0; 255] = Ok s /\
             length s = 1086%nat).
Proof.
  split; [reflexivity|]. split; [reflexivity|].
  destruct C1_output_length as (Henc & _ & Hcolored).
  split.
  - destruct (Henc 2 3 (repeat x00 24)) as (s & Hs & _ & Hl);
      [lia | lia | reflexivity |].
    exists s. split; assumption.
  - destruct (Hcolored [0; 255; 0; 255] "thermometer-cool.ico"%string
                (mkWorld ∅ []) eq_refl) as (s & Hs & _ & Hl).
    exists s. split; assumption.
Defined.

(** C2: in every stream the container writer produces, the four-byte
    little-endian field at offset 14 (imageSize) is 40 + width*height*4,
    the one at offset 18 (dataOffset) is 22 and the one at offset 30
    (biHeight) is 2*height; for the streams of [create_simple_ico] and
    [create_colored_ico], with width and height 16. *)
Theorem C2_size_offset_height :
  (forall (width height : Z) (pixels s : bytes),
     CreateIcon.encode width height pixels = Ok s \/
     CreateTemperatureIcons.encode width height pixels = Ok s ->
     u32_at 14 s = 40 + width * height * 4 /\
     u32_at 18 s = 22 /\
     u32_at 30 s = 2 * height) /\
  (forall s : bytes,
     CreateIcon.create_simple_ico = Ok s ->
     u32_at 14 s = 40 + 16 * 16 * 4 /\ u32_at 18 s = 22 /\
     u32_at 30 s = 2 * 16) /\
  (forall (color_bgra : list Z) (s : bytes),
     CreateTemperatureIcons.ico_data color_bgra = Ok s ->
     u32_at 14 s = 40 + 16 * 16 * 4 /\ u32_at 18 s = 22 /\
     u32_at 30 s = 2 * 16).
Proof.
  assert (Hfields : forall width height px,
             fits_byte width -> fits_byte height ->
             let s := headers width height ++ px in
             u32_at 14 s = 40 + width * height * 4 /\
             u32_at 18 s = 22 /\ u32_at 30 s = 2 * height).
  { intros width height px Hw Hh.
    destruct (header_fields width height px Hw Hh)
      as (_ & _ & F14 & F18 & _ & F30 & _). auto. }
  repeat apply conj.
  - intros width height pixels s Hs.
    assert (He : CreateIcon.encode width height pixels = Ok s)
      by (destruct Hs as [Hs|Hs]; [|rewrite encode_same in Hs]; exact Hs).
    apply encode_Ok in He as (Hw & Hh & ->). now apply Hfields.
  - intros s Hs. rewrite create_simple_ico_closed in Hs.
    inversion Hs. apply Hfields; apply fits_16.
  - intros color_bgra s Hs.
    apply ico_data_Ok in Hs as (color & _ & ->). apply Hfields; apply fits_16.
Qed.

Lemma C2_size_offset_height_witness :
  CreateIcon.encode 3 5 (repeat xff 60)
  = Ok (headers 3 5 ++ repeat xff 60) /\
  u32_at 14 (headers 3 5 ++ repeat xff 60) = 100 /\
  u32_at 30 (headers 3 5 ++ repeat xff 60) = 10 /\
  u32_at 14 (headers 16 16 ++ pattern red 16 16) = 1064.
Proof.
  assert (He : CreateIcon.encode 3 5 (repeat xff 60)
               = Ok (headers 3 5 ++ repeat xff 60)) by reflexivity.
  split; [exact He|].
  destruct C2_size_offset_height as (Henc & Hsimple & _).
  destruct (Henc 3 5 (repeat xff 60) _ (or_introl He)) as (H14 & _ & H30).
  destruct (Hsimple _ create_simple_ico_closed) as (H14' & _).
  repeat split; assumption.
Defined.

(** C3: for every pixel buffer the writer returns a stream, and the bytes
    of that stream from offset 62 to the end are the buffer, unchanged and
    in the same order: so for the container writer on any buffer (with a
    width and a height it can pack), for [create_simple_ico] and for
    [create_colored_ico] with the buffer their loops filled; and no stream
    either of them returns holds anything else after offset 62. *)
Theorem C3_pixels_verbatim :
  (forall (width height : Z) (pixels : bytes),
     fits_byte width -> fits_byte height ->
     exists s,
       CreateIcon.encode width height pixels = Ok s /\
       CreateTemperatureIcons.encode width height pixels = Ok s /\
       skipn 62 s = pixels /\ slice 62 (length s) s = pixels) /\
  (exists s image_data,
     CreateIcon.create_simple_ico = Ok s /\
     CreateIcon.image_data 16 16 = Ok image_data /\
     skipn 62 s = image_data) /\
  (forall color_bgra : list Z,
     all_bytes color_bgra = true ->
     exists s image_data,
       CreateTemperatureIcons.ico_data color_bgra = Ok s /\
       CreateTemperatureIcons.image_data color_bgra 16 16 = Ok image_data /\
       skipn 62 s = image_data) /\
  (forall (width height : Z) (pixels s : bytes),
     CreateIcon.encode width height pixels = Ok s \/
     CreateTemperatureIcons.encode width height pixels = Ok s ->
     skipn 62 s = pixels /\ slice 62 (length s) s = pixels) /\
  (forall s : bytes,
     CreateIcon.create_simple_ico = Ok s ->
     exists image_data,
       CreateIcon.image_data 16 16 = Ok image_data /\
       skipn 62 s = image_data) /\
  (forall (color_bgra : list Z) (s : bytes),
     CreateTemperatureIcons.ico_data color_bgra = Ok s ->
     exists image_data,
       CreateTemperatureIcons.image_data color_bgra 16 16 = Ok image_data /\
       skipn 62 s = image_data).
Proof.
  assert (Hslice : forall width height (pixels : bytes),
             skipn 62 (headers width height ++ pixels) = pixels /\
             slice 62 (length (headers width height ++ pixels))
                   (headers width height ++ pixels) = pixels).
  { intros width height pixels.
    assert (Hskip : skipn 62 (headers width height ++ pixels) = pixels)
      by reflexivity.
    split; [exact Hskip|].
    unfold slice. rewrite Hskip, length_app, length_headers.
    replace (62 + length pixels - 62)%nat with (length pixels) by lia.
    apply firstn_all. }
  repeat apply conj.
  - intros width height pixels Hw Hh.
    exists (headers width height ++ pixels).
    rewrite encode_same, encode_fits by assumption.
    destruct (Hslice width height pixels). auto.
  - exists (headers 16 16 ++ pattern red 16 16), (pattern red 16 16).
    split; [apply create_simple_ico_closed|].
    split; [apply simple_image_data_closed | reflexivity].
  - intros color_bgra Hc.
    destruct (bytes_of_ints_total _ Hc) as (color & Hcolor & _).
    exists (headers 16 16 ++ pattern color 16 16), (pattern color 16 16).
    split; [now apply ico_data_closed|].
    split; [now apply colored_image_data_closed | reflexivity].
  - intros width height pixels s Hs.
    assert (He : CreateIcon.encode width height pixels = Ok s)
      by (destruct Hs as [Hs|Hs]; [|rewrite encode_same in Hs]; exact Hs).
    apply encode_Ok in He as (_ & _ & ->). apply Hslice.
  - intros s Hs. rewrite create_simple_ico_closed in Hs. inversion Hs.
    exists (pattern red 16 16). split; [apply simple_image_data_closed|].
    reflexivity.
  - intros color_bgra s Hs. apply ico_data_Ok in Hs as (color & Hc & ->).
    exists (pattern color 16 16).
    split; [now apply colored_image_data_closed | reflexivity].
Qed.

Lemma C3_pixels_verbatim_witness :
  fits_byte 2 /\ fits_byte 1 /\ all_bytes [0; 165; 255] = true /\
  (exists s,
     CreateIcon.encode 2 1 [x01; x02; x03; x04; x05; x06; x07; x08] = Ok s /\
     skipn 62 s = [x01; x02; x03; x04; x05; x06; x07; x08]) /\
  (exists s image_data,
     CreateTemperatureIcons.ico_data [0; 165; 255] = Ok s /\
     CreateTemperatureIcons.image_data [0; 165; 255] 16 16 = Ok image_data /\
     skipn 62 s = image_data).
Proof.
  assert (H2 : fits_byte 2) by (unfold fits_byte; lia).
  assert (H1 : fits_byte 1) by (unfold fits_byte; lia).
  destruct C3_pixels_verbatim as (Henc & _ & Hcolored & _).
  split; [exact H2|]. split; [exact H1|]. split; [reflexivity|]. split.
  - destruct (Henc 2 1 [x01; x02; x03; x04; x05; x06; x07; x08] H2 H1)
      as (s & Hs & _ & Hskip & _).
    exists s. split; assumption.
  - exact (Hcolored [0; 165; 255] eq_refl).
Defined.

(** C5, as the code has it: the container writer validates nothing itself.
    It succeeds exactly when width and height both lie in 0..255 (0
    included), whatever the length of the pixel buffer, which it appends as
    it is; otherwise [struct.pack] raises [struct.error]. *)
Theorem C5_no_validation (width height : Z) (pixels : bytes) :
  (fits_byte width /\ fits_byte height ->
   CreateIcon.encode width height pixels
   = Ok (headers width height ++ pixels)) /\
  (~ (fits_byte width /\ fits_byte height) ->
   CreateIcon.encode width height pixels = Raise StructError) /\
  CreateTemperatureIcons.encode width height pixels
  = CreateIcon.encode width height pixels.
Proof.
  repeat apply conj.
  - intros [Hw Hh]. now apply encode_fits.
  - intros Hno.
    destruct (CreateIcon.encode width height pixels) as [s|e] eqn:He.
    + exfalso. apply Hno. now apply encode_Ok_fits in He.
    + now rewrite (encode_raises _ _ _ _ He).
  - reflexivity.
Qed.

Lemma C5_no_validation_witness :
  CreateIcon.encode 0 16 [] = Ok (headers 0 16) /\
  CreateIcon.encode 16 16 [x00] = Ok (headers 16 16 ++ [x00]) /\
  CreateIcon.encode 256 16 [] = Raise StructError.
Proof.
  destruct (C5_no_validation 0 16 []) as (Hzero & _).
  destruct (C5_no_validation 16 16 [x00]) as (Hshort & _).
  destruct (C5_no_validation 256 16 []) as (_ & Hraise & _).
  repeat apply conj.
  - rewrite Hzero; [now rewrite app_nil_r | unfold fits_byte; lia].
  - apply Hshort. unfold fits_byte. lia.
  - apply Hraise. unfold fits_byte. lia.
Defined.

(** C5 as the spec states it fails: a width of 0 is encoded without any
    error, and so is a pixel buffer of one byte under width and height 16,
    where width*height*4 is 1024. *)
Lemma C5_counterexample :
  CreateIcon.encode 0 16 [] = Ok (headers 0 16) /\
  CreateIcon.encode 16 16 [x00] = Ok (headers 16 16 ++ [x00]) /\
  Z.of_nat (length [x00]) <> 16 * 16 * 4 /\
  ~ (forall (width height : Z) (pixels : bytes),
       width = 0 \/ height = 0 \/ 255 < width \/ 255 < height \/
       Z.of_nat (length pixels) <> width * height * 4 ->
       exists e, CreateIcon.encode width height pixels = Raise e).
Proof.
  repeat apply conj; try reflexivity.
  - simpl. lia.
  - intros Hclaim. destruct (Hclaim 0 16 []) as [e He]; [auto|].
    vm_compute in He. discriminate He.
Qed.

(** C6: for width = height = 16 and a buffer of 1024 pixel bytes (the
    thermometer pattern of [create_simple_ico], or any other, such as one
    alternating transparent and opaque red pixels) the output has exactly
    1086 bytes, starts with 00 00 01 00 01 00, has 10 10 at offsets 6-7 and
    20 00 at offsets 12-13. *)
Theorem C6_thermometer_scenario :
  (exists s,
     CreateIcon.create_simple_ico = Ok s /\
     length s = 1086%nat /\
     slice 0 6 s = [x00; x00; x01; x00; x01; x00] /\
     slice 6 8 s = [x10; x10] /\
     slice 12 14 s = [x20; x00]) /\
  (forall pixels : bytes,
     length pixels = 1024%nat ->
     exists s,
       CreateIcon.encode 16 16 pixels = Ok s /\
       length s = 1086%nat /\
       slice 0 6 s = [x00; x00; x01; x00; x01; x00] /\
       slice 6 8 s = [x10; x10] /\
       slice 12 14 s = [x20; x00]).
Proof.
  split.
  - exists (headers 16 16 ++ pattern red 16 16).
    split; [apply create_simple_ico_closed|].
    split; [rewrite length_app, length_headers, length_pattern; reflexivity|].
    repeat split.
  - intros pixels Hlen. exists (headers 16 16 ++ pixels).
    split; [apply encode_fits; apply fits_16|].
    split; [rewrite length_app, length_headers, Hlen; reflexivity|].
    repeat split.
Qed.

Lemma C6_thermometer_scenario_witness :
  length alternating = 1024%nat /\
  pixels_all (fun p => p = transparent \/ p = red) alternating /\
  exists s,
    CreateIcon.encode 16 16 alternating = Ok s /\
    length s = 1086%nat /\
    slice 0 6 s = [x00; x00; x01; x00; x01; x00] /\
    slice 6 8 s = [x10; x10] /\
    slice 12 14 s = [x20; x00].
Proof.
  split; [reflexivity|]. split.
  - unfold alternating. exists (concat (repeat [transparent; red] 128)).
    split; [reflexivity|].
    apply Forall_concat, Forall_forall.
    intros ps Hps. apply list_elem_of_In, repeat_spec in Hps. subst ps.
    repeat (constructor; [split; [reflexivity | auto] |]).
    constructor.
  - exact (proj2 C6_thermometer_scenario alternating eq_refl).
Defined.

(** C7: the round trip through a standard reader fails.  The writers
    store the rows in the order the loops make them, row 0 first, under a
    positive biHeight; a standard reader takes the first stored row as the
    bottom row of the image.  So the reader returns width and height, but
    the rows of the buffer in reverse order: for width 1, height 2 and the
    buffer 01..08 it returns 05 06 07 08 01 02 03 04, and the icon of
    [create_simple_ico] comes out upside down, the ring of the bulb in its
    top row where the loops put the tube. *)
Theorem C7_standard_reader_reverses_rows :
  (exists s,
     CreateIcon.encode 1 2 [x01; x02; x03; x04; x05; x06; x07; x08] = Ok s /\
     decode s
     = Some (mkIcoImage 1 2 [x05; x06; x07; x08; x01; x02; x03; x04])) /\
  (exists s image_data img,
     CreateIcon.create_simple_ico = Ok s /\
     CreateIcon.image_data 16 16 = Ok image_data /\
     decode s = Some img /\
     width img = 16 /\ height img = 16 /\
     pixels img = concat (rev (rows 16 64 image_data)) /\
     pixels img <> image_data /\
     pixel_at 8 image_data = red /\
     pixel_at 8 (pixels img) = black /\
     pixel_at (16 * 2 + 8) (pixels img) = pixel_at (16 * 13 + 8) image_data).
Proof.
  split.
  - exists (headers 1 2 ++ [x01; x02; x03; x04; x05; x06; x07; x08]).
    split; reflexivity.
  - exists (headers 16 16 ++ pattern red 16 16), (pattern red 16 16),
           (mkIcoImage 16 16 (concat (rev (rows 16 64 (pattern red 16 16))))).
    split; [apply create_simple_ico_closed|].
    split; [apply simple_image_data_closed|].
    split; [apply decode_headers; try apply fits_16;
            rewrite length_pattern; reflexivity|].
    cbn [width height pixels]. repeat split.
    intros Heq. apply (f_equal (pixel_at 8)) in Heq. discriminate Heq.
Qed.

(** C8: the stream [create_colored_ico] builds for the colour
    [0, 0, 255, 255] is byte for byte the stream [create_simple_ico]
    returns, and it is what the call leaves in its file. *)
Theorem C8_red_refines_simple :
  CreateTemperatureIcons.ico_data [0; 0; 255; 255]
  = CreateIcon.create_simple_ico /\
  exists s,
    CreateIcon.create_simple_ico = Ok s /\
    forall (filename : string) (w : World),
      written filename
        (snd (CreateTemperatureIcons.create_colored_ico [0; 0; 255; 255]
                filename w))
      = Some s.
Proof.
  assert (Hred : bytes_of_ints [0; 0; 255; 255] = Ok red) by reflexivity.
  split.
  - now rewrite (ico_data_closed _ _ Hred), create_simple_ico_closed.
  - exists (headers 16 16 ++ pattern red 16 16).
    split; [apply create_simple_ico_closed|].
    intros filename w. rewrite (create_colored_ico_Ok _ _ filename w Hred).
    apply written_insert.
Qed.

(** C9: with a colour of four bytes, every four-byte pixel of the image
    data that [create_colored_ico] writes after the 62 header bytes is the
    given colour, opaque black [0,0,0,255] or transparent [0,0,0,0]; so when
    the colour's alpha is 255 every pixel's alpha byte is 0 or 255.  The
    pixels of [create_simple_ico] are red, black or transparent. *)
Theorem C9_three_pixel_values :
  (forall (color_bgra : list Z) (filename : string) (w : World),
     is_bgra color_bgra = true ->
     exists color s,
       bytes_of_ints color_bgra = Ok color /\
       CreateTemperatureIcons.ico_data color_bgra = Ok s /\
       written filename
         (snd (CreateTemperatureIcons.create_colored_ico color_bgra filename w))
       = Some s /\
       length (skipn 62 s) = 1024%nat /\
       forall i : nat,
         (i < 256)%nat ->
         let p := pixel_at i (skipn 62 s) in
         (p = color \/ p = black \/ p = transparent) /\
         (nth 3 color_bgra 0 = 255 ->
          nth 3 p x00 = x00 \/ nth 3 p x00 = xff)) /\
  (exists s,
     CreateIcon.create_simple_ico = Ok s /\
     forall i : nat,
       (i < 256)%nat ->
       let p := pixel_at i (skipn 62 s) in
       p = red \/ p = black \/ p = transparent).
Proof.
  split.
  - intros color_bgra filename w Hbgra.
    destruct (is_bgra_bytes _ Hbgra) as (color & Hc & Hl).
    exists color, (headers 16 16 ++ pattern color 16 16).
    split; [exact Hc|]. split; [now apply ico_data_closed|].
    split; [rewrite (create_colored_ico_Ok _ _ filename w Hc);
            apply written_insert|].
    change (skipn 62 (headers 16 16 ++ pattern color 16 16))
      with (pattern color 16 16).
    assert (Hlen : length (pattern color 16 16) = 1024%nat)
      by (rewrite length_pattern by exact Hl; reflexivity).
    split; [exact Hlen|].
    intros i Hi. cbv zeta.
    destruct (pixels_all_at _ _ i (pattern_pixels_all color 16 16 Hl))
      as [_ Hp]; [lia|].
    split; [exact Hp|].
    intros Ha. pose proof (alpha_of_bytes _ _ Hc Ha) as Hxff.
    destruct Hp as [-> | [-> | ->]]; auto.
  - exists (headers 16 16 ++ pattern red 16 16).
    split; [apply create_simple_ico_closed|].
    intros i Hi. cbv zeta.
    change (skipn 62 (headers 16 16 ++ pattern red 16 16))
      with (pattern red 16 16).
    apply (pixels_all_at _ _ i (pattern_pixels_all red 16 16 eq_refl)).
    rewrite length_pattern by reflexivity. change (4 * i < 1024)%nat. lia.
Qed.

Lemma C9_three_pixel_values_witness :
  is_bgra [0; 165; 255; 255] = true /\
  exists color s,
    bytes_of_ints [0; 165; 255; 255] = Ok color /\
    CreateTemperatureIcons.ico_data [0; 165; 255; 255] = Ok s /\
    forall i : nat,
      (i < 256)%nat ->
      pixel_at i (skipn 62 s) = color \/
      pixel_at i (skipn 62 s) = black \/
      pixel_at i (skipn 62 s) = transparent.
Proof.
  split; [reflexivity|].
  destruct (proj1 C9_three_pixel_values [0; 165; 255; 255]
              "thermometer-warm.ico"%string (mkWorld ∅ []) eq_refl)
    as (color & s & Hc & Hs & _ & _ & Hpx).
  exists color, s. split; [exact Hc|]. split; [exact Hs|].
  intros i Hi. exact (proj1 (Hpx i Hi)).
Defined.

(** C10: the first 62 bytes of the stream [create_colored_ico] builds do
    not depend on the colour: whenever it builds a stream for each of two
    colours, the two streams agree at every offset from 0 to 61. *)
Theorem C10_headers_color_independent (color1 color2 : list Z)
    (s1 s2 : bytes) :
  CreateTemperatureIcons.ico_data color1 = Ok s1 ->
  CreateTemperatureIcons.ico_data color2 = Ok s2 ->
  slice 0 62 s1 = slice 0 62 s2 /\
  forall i : nat, (i < 62)%nat -> nth_error s1 i = nth_error s2 i.
Proof.
  intros (c1 & _ & ->)%ico_data_Ok (c2 & _ & ->)%ico_data_Ok.
  split; [reflexivity|].
  intros i Hi.
  rewrite !nth_error_app1 by (rewrite length_headers; exact Hi).
  reflexivity.
Qed.

Lemma C10_headers_color_independent_witness :
  exists s1 s2,
    CreateTemperatureIcons.ico_data [0; 255; 0; 255] = Ok s1 /\
    CreateTemperatureIcons.ico_data [0; 0; 255; 255] = Ok s2 /\
    slice 0 62 s1 = slice 0 62 s2.
Proof.
  assert (H1 : bytes_of_ints [0; 255; 0; 255] = Ok [x00; xff; x00; xff])
    by reflexivity.
  assert (H2 : bytes_of_ints [0; 0; 255; 255] = Ok red) by reflexivity.
  eexists; eexists.
  split; [exact (ico_data_closed _ _ H1)|].
  split; [exact (ico_data_closed _ _ H2)|].
  exact (proj1 (C10_headers_color_independent _ _ _ _
                  (ico_data_closed _ _ H1) (ico_data_closed _ _ H2))).
Defined.

(** * Further properties of the two writers *)

(** ** Every header field *)

Lemma all_header_fields (width height : Z) (image_data : bytes) :
  fits_byte width -> fits_byte height ->
  let s := headers width height ++ image_data in
  (u16_at 0 s = 0 /\ u16_at 2 s = 1 /\ u16_at 4 s = 1 /\
   u8_at 6 s = width /\ u8_at 7 s = height /\ u8_at 8 s = 0 /\
   u8_at 9 s = 0 /\ u16_at 10 s = 1 /\ u16_at 12 s = 32) /\
  (u32_at 22 s = 40 /\ u32_at 26 s = width /\ u16_at 34 s = 1 /\
   u16_at 36 s = 32 /\ u32_at 38 s = 0 /\
   u32_at 42 s = width * height * 4 /\
   u32_at 46 s = 0 /\ u32_at 50 s = 0 /\ u32_at 54 s = 0 /\ u32_at 58 s = 0).
Proof.
  intros Hw Hh. cbv zeta.
  destruct (header_fields width height image_data Hw Hh)
    as (F6 & F7 & _ & _ & F26 & _ & F42).
  cbv zeta in *. repeat split; assumption.
Qed.

Lemma encode_either (width height : Z) (pixels s : bytes) :
  CreateIcon.encode width height pixels = Ok s \/
  CreateTemperatureIcons.encode width height pixels = Ok s ->
  fits_byte width /\ fits_byte height /\ s = headers width height ++ pixels.
Proof.
  intros Hs. apply encode_Ok.
  destruct Hs as [Hs|Hs]; [|rewrite encode_same in Hs]; exact Hs.
Qed.

(** X1: in every stream the container writer returns, the icon header and
    the directory entry read back as they were packed: reserved 0, type 1,
    count 1, the width and the height in one byte each, no palette,
    reserved 0, one plane, 32 bits per pixel. *)
Theorem X1_directory_fields (width height : Z) (pixels s : bytes) :
  CreateIcon.encode width height pixels = Ok s \/
  CreateTemperatureIcons.encode width height pixels = Ok s ->
  u16_at 0 s = 0 /\ u16_at 2 s = 1 /\ u16_at 4 s = 1 /\
  u8_at 6 s = width /\ u8_at 7 s = height /\ u8_at 8 s = 0 /\
  u8_at 9 s = 0 /\ u16_at 10 s = 1 /\ u16_at 12 s = 32.
Proof.
  intros (Hw & Hh & ->)%encode_either.
  exact (proj1 (all_header_fields width height pixels Hw Hh)).
Qed.

Lemma X1_directory_fields_witness :
  u8_at 6 (headers 200 7 ++ [x01]) = 200 /\
  u8_at 7 (headers 200 7 ++ [x01]) = 7.
Proof.
  destruct (X1_directory_fields 200 7 [x01] (headers 200 7 ++ [x01]))
    as (_ & _ & _ & H6 & H7 & _); [left; reflexivity|].
  split; assumption.
Defined.

(** X2: in every stream the container writer returns, the bitmap info
    header reads back as packed: biSize 40, biWidth the width, one plane,
    32 bits, no compression, biSizeImage width*height*4, and the four
    trailing fields 0. *)
Theorem X2_bitmap_header_fields (width height : Z) (pixels s : bytes) :
  CreateIcon.encode width height pixels = Ok s \/
  CreateTemperatureIcons.encode width height pixels = Ok s ->
  u32_at 22 s = 40 /\ u32_at 26 s = width /\ u16_at 34 s = 1 /\
  u16_at 36 s = 32 /\ u32_at 38 s = 0 /\
  u32_at 42 s = width * height * 4 /\
  u32_at 46 s = 0 /\ u32_at 50 s = 0 /\ u32_at 54 s = 0 /\ u32_at 58 s = 0.
Proof.
  intros (Hw & Hh & ->)%encode_either.
  exact (proj2 (all_header_fields width height pixels Hw Hh)).
Qed.

Lemma X2_bitmap_header_fields_witness :
  u32_at 26 (headers 255 255 ++ []) = 255 /\
  u32_at 42 (headers 255 255 ++ []) = 260100.
Proof.
  destruct (X2_bitmap_header_fields 255 255 [] (headers 255 255 ++ []))
    as (_ & H26 & _ & _ & _ & H42 & _); [left; reflexivity|].
  split; assumption.
Defined.

(** X3: the sizes a stream declares are consistent with each other
    (imageSize = biSize + biSizeImage, dataOffset = 22), whatever the pixel
    buffer; the stream's real length is dataOffset + imageSize exactly when
    the buffer has width*height*4 bytes, which nothing checks. *)
Theorem X3_declared_sizes (width height : Z) (pixels s : bytes) :
  CreateIcon.encode width height pixels = Ok s ->
  u32_at 14 s = u32_at 22 s + u32_at 42 s /\
  (Z.of_nat (length s) = u32_at 18 s + u32_at 14 s <->
   Z.of_nat (length pixels) = width * height * 4).
Proof.
  intros (Hw & Hh & ->)%encode_Ok.
  destruct (header_fields width height pixels Hw Hh)
    as (_ & _ & F14 & F18 & _ & _ & F42).
  destruct (all_header_fields width height pixels Hw Hh)
    as (_ & F22 & _).
  cbv zeta in *. rewrite F14, F18, F22, F42, length_app, length_headers.
  split; lia.
Qed.

Lemma X3_declared_sizes_witness :
  u32_at 14 (headers 16 16 ++ [x00]) = 1064 /\
  Z.of_nat (length (headers 16 16 ++ [x00])) <> 22 + 1064.
Proof.
  destruct (X3_declared_sizes 16 16 [x00] (headers 16 16 ++ [x00]) eq_refl)
    as (H14 & Hlen).
  split; [rewrite H14; reflexivity|].
  intros Hfalse.
  assert (Hbad : Z.of_nat (length [x00]) = 16 * 16 * 4)
    by (apply Hlen; rewrite Hfalse; reflexivity).
  simpl in Hbad. lia.
Defined.

(** X4: the container writer is injective: a stream comes from one width,
    one height and one pixel buffer only. *)
Theorem X4_encode_injective (width1 height1 width2 height2 : Z)
    (pixels1 pixels2 s : bytes) :
  CreateIcon.encode width1 height1 pixels1 = Ok s ->
  CreateIcon.encode width2 height2 pixels2 = Ok s ->
  width1 = width2 /\ height1 = height2 /\ pixels1 = pixels2.
Proof.
  intros (Hw1 & Hh1 & ->)%encode_Ok (Hw2 & Hh2 & Heq)%encode_Ok.
  destruct (header_fields width1 height1 pixels1 Hw1 Hh1) as (Fw1 & Fh1 & _).
  destruct (header_fields width2 height2 pixels2 Hw2 Hh2) as (Fw2 & Fh2 & _).
  cbv zeta in *. rewrite Heq in Fw1, Fh1.
  repeat split; try congruence.
  change pixels1 with (skipn 62 (headers width1 height1 ++ pixels1)).
  rewrite Heq. reflexivity.
Qed.

Lemma X4_encode_injective_witness :
  CreateIcon.encode 1 1 [x01; x02; x03; x04]
  = Ok (headers 1 1 ++ [x01; x02; x03; x04]) /\
  (1 = 1 /\ 1 = 1 /\ [x01; x02; x03; x04] = [x01; x02; x03; x04]).
Proof.
  assert (He : CreateIcon.encode 1 1 [x01; x02; x03; x04]
               = Ok (headers 1 1 ++ [x01; x02; x03; x04])) by reflexivity.
  split; [exact He|].
  exact (X4_encode_injective 1 1 1 1 _ _ _ He He).
Defined.

(** ** Where a pixel lands *)

Section Chunks.

Context {A : Type} (f : A -> bytes) (n : nat).
Hypothesis f_length : forall a, length (f a) = n.

Lemma skipn_app_length (l r : bytes) (k : nat) :
  skipn (length l + k) (l ++ r) = skipn k r.
Proof.
  rewrite skipn_app, skipn_all2 by lia.
  replace (length l + k - length l)%nat with k by lia. reflexivity.
Qed.

Lemma skipn_flat_map (xs : list A) (i : nat) :
  skipn (i * n) (flat_map f xs) = flat_map f (skipn i xs).
Proof.
  revert xs. induction i as [|i IH]; intros xs; [reflexivity|].
  destruct xs as [|a xs]; [now rewrite skipn_nil|].
  cbn [flat_map skipn Nat.mul]. rewrite <- (f_length a).
  rewrite skipn_app_length, (f_length a). apply IH.
Qed.

Lemma firstn_flat_map_cons (a : A) (xs : list A) (r : bytes) :
  firstn n (flat_map f (a :: xs) ++ r) = f a.
Proof.
  cbn [flat_map]. rewrite <- app_assoc, firstn_app, (f_length a).
  rewrite Nat.sub_diag, firstn_0, app_nil_r.
  apply firstn_all2. rewrite (f_length a). lia.
Qed.

End Chunks.

Lemma skipn_range (n y : Z) :
  0 <= y < n ->
  skipn (Z.to_nat y) (range n) = y :: skipn (S (Z.to_nat y)) (range n).
Proof.
  intros Hy. unfold range. rewrite !skipn_map, !skipn_seq.
  replace (Z.to_nat n - Z.to_nat y)%nat
    with (S (Z.to_nat n - S (Z.to_nat y))) by lia.
  cbn [seq map]. rewrite Nat.add_0_l, Z2Nat.id by lia.
  repeat (f_equal; try lia).
Qed.

Lemma pixel_at_firstn (i : nat) (px : bytes) :
  pixel_at i px = firstn 4 (skipn (i * 4) px).
Proof.
  unfold pixel_at, slice.
  replace (4 * i + 4 - 4 * i)%nat with 4%nat by lia.
  now rewrite (Nat.mul_comm 4 i).
Qed.

Lemma pattern_at (color : bytes) (width height x y : Z) :
  length color = 4%nat -> 0 <= x < width -> 0 <= y < height ->
  pixel_at (Z.to_nat (y * width + x)) (pattern color width height)
  = pattern_pixel color x y.
Proof.
  intros Hl Hx Hy.
  set (row := fun y' => flat_map (fun x' => pattern_pixel color x' y')
                                 (range width)).
  assert (Hrow : forall y', length (row y') = (Z.to_nat width * 4)%nat).
  { intros y'. unfold row.
    rewrite (length_flat_map_const _ _ 4), length_range; [reflexivity|].
    intros x'. now apply length_pattern_pixel. }
  rewrite pixel_at_firstn.
  replace (Z.to_nat (y * width + x) * 4)%nat
    with (Z.to_nat x * 4 + Z.to_nat y * (Z.to_nat width * 4))%nat by nia.
  rewrite <- skipn_skipn. change (pattern color width height)
    with (flat_map row (range height)).
  rewrite (skipn_flat_map row _ Hrow), (skipn_range height y Hy).
  cbn [flat_map]. rewrite skipn_app.
  replace (Z.to_nat x * 4 - length (row y))%nat with 0%nat
    by (rewrite Hrow; nia).
  cbn [skipn]. unfold row at 1.
  rewrite (skipn_flat_map _ 4) by (intros x'; now apply length_pattern_pixel).
  rewrite (skipn_range width x Hx).
  apply (firstn_flat_map_cons (fun x' => pattern_pixel color x' y) 4).
  intros x'. now apply length_pattern_pixel.
Qed.

(** X5: the image data is row-major: for a column [x] and a row [y] inside
    the image, the four bytes at pixel index [y * width + x] of the buffer
    the loops leave are the ones the loop body appends for [(x, y)]. *)
Theorem X5_row_major (width height x y : Z) :
  0 <= x < width -> 0 <= y < height ->
  (forall px : bytes,
     CreateIcon.image_data width height = Ok px ->
     CreateIcon.paint x y [] = Ok (pixel_at (Z.to_nat (y * width + x)) px)) /\
  (forall (color_bgra : list Z) (px : bytes),
     is_bgra color_bgra = true ->
     CreateTemperatureIcons.image_data color_bgra width height = Ok px ->
     CreateTemperatureIcons.paint color_bgra x y []
     = Ok (pixel_at (Z.to_nat (y * width + x)) px)).
Proof.
  intros Hx Hy. split.
  - intros px Hpx. rewrite simple_image_data_closed in Hpx.
    injection Hpx as <-.
    rewrite simple_paint_appends, pattern_at by (assumption || reflexivity).
    reflexivity.
  - intros color_bgra px Hc Hpx.
    destruct (is_bgra_bytes _ Hc) as (color & Hcolor & Hl).
    rewrite (colored_image_data_closed _ _ _ _ Hcolor) in Hpx.
    injection Hpx as <-.
    rewrite (colored_paint_appends _ _ _ _ _ Hcolor), pattern_at
      by assumption.
    reflexivity.
Qed.

Lemma X5_row_major_witness :
  exists px : bytes,
    CreateIcon.image_data 16 16 = Ok px /\ Ok (pixel_at 200 px) = Ok red.
Proof.
  exists (pattern red 16 16).
  pose proof (simple_image_data_closed 16 16) as Hpx.
  split; [exact Hpx|].
  destruct (X5_row_major 16 16 8 12) as (Hsimple & _); [lia | lia |].
  symmetry. exact (Hsimple _ Hpx).
Defined.

(** ** The shape that is drawn *)

Ltac z_cases :=
  repeat (match goal with
          | |- context [?a =? ?b] => destruct (Z.eqb_spec a b)
          | |- context [?a <? ?b] => destruct (Z.ltb_spec a b)
          | |- context [?a <=? ?b] => destruct (Z.leb_spec a b)
          end; try lia);
  cbn [andb orb]; try reflexivity.

Lemma pattern_pixel_regions (color : bytes) (x y : Z) :
  (x = 8 /\ y <= 11 \/ 6 <= x <= 10 /\ 12 <= y <= 14 ->
   pattern_pixel color x y = color) /\
  ((x = 7 \/ x = 9) /\ y <= 11 \/
   5 <= x <= 11 /\ (y = 11 \/ y = 15) /\ ~ (7 <= x <= 9 /\ y = 11) \/
   (x = 5 \/ x = 11) /\ 12 <= y <= 14 ->
   pattern_pixel color x y = black) /\
  (~ (7 <= x <= 9 /\ y <= 11) /\ ~ (5 <= x <= 11 /\ 11 <= y <= 15) ->
   pattern_pixel color x y = transparent).
Proof.
  unfold pattern_pixel. cbn [existsb].
  repeat split; intros Hregion; z_cases.
Qed.

Lemma pattern_pixel_mirror (color : bytes) (x y : Z) :
  pattern_pixel color (16 - x) y = pattern_pixel color x y.
Proof.
  unfold pattern_pixel. cbn [existsb]. z_cases.
Qed.

Lemma stream_pixel (color_bgra : list Z) (s : bytes) :
  is_bgra color_bgra = true ->
  CreateTemperatureIcons.ico_data color_bgra = Ok s ->
  exists color,
    bytes_of_ints color_bgra = Ok color /\
    forall x y : Z,
      0 <= x < 16 -> 0 <= y < 16 ->
      pixel_at (Z.to_nat (y * 16 + x)) (skipn 62 s) = pattern_pixel color x y.
Proof.
  intros Hc Hs. destruct (is_bgra_bytes _ Hc) as (color & Hcolor & Hl).
  exists color. split; [exact Hcolor|].
  rewrite (ico_data_closed _ _ Hcolor) in Hs. injection Hs as <-.
  intros x y Hx Hy.
  change (skipn 62 (headers 16 16 ++ pattern color 16 16))
    with (pattern color 16 16).
  now apply pattern_at.
Qed.

(** X6: the shape [create_colored_ico] draws.  In its stream the pixel of
    column [x], row [y] is the given colour on the tube (column 8, rows 0 to
    11) and in the bulb (columns 6-10, rows 12-14); it is opaque black on
    the outline (columns 7 and 9 beside the tube, the ring around the bulb);
    it is transparent everywhere else. *)
Theorem X6_silhouette (color_bgra : list Z) (s : bytes) (x y : Z) :
  is_bgra color_bgra = true ->
  CreateTemperatureIcons.ico_data color_bgra = Ok s ->
  0 <= x < 16 -> 0 <= y < 16 ->
  let p := pixel_at (Z.to_nat (y * 16 + x)) (skipn 62 s) in
  (x = 8 /\ y <= 11 \/ 6 <= x <= 10 /\ 12 <= y <= 14 ->
   bytes_of_ints color_bgra = Ok p) /\
  ((x = 7 \/ x = 9) /\ y <= 11 \/
   5 <= x <= 11 /\ (y = 11 \/ y = 15) /\ ~ (7 <= x <= 9 /\ y = 11) \/
   (x = 5 \/ x = 11) /\ 12 <= y <= 14 ->
   p = black) /\
  (~ (7 <= x <= 9 /\ y <= 11) /\ ~ (5 <= x <= 11 /\ 11 <= y <= 15) ->
   p = transparent).
Proof.
  intros Hc Hs Hx Hy. cbv zeta.
  destruct (stream_pixel _ _ Hc Hs) as (color & Hcolor & Hpx).
  rewrite (Hpx x y Hx Hy).
  destruct (pattern_pixel_regions color x y) as (Hcol & Hblack & Htransp).
  repeat split.
  - intros Hregion. now rewrite (Hcol Hregion).
  - exact Hblack.
  - exact Htransp.
Qed.

Lemma X6_silhouette_witness :
  exists s,
    CreateTemperatureIcons.ico_data [0; 255; 0; 255] = Ok s /\
    bytes_of_ints [0; 255; 0; 255] = Ok (pixel_at 8 (skipn 62 s)) /\
    pixel_at 7 (skipn 62 s) = black /\
    pixel_at 0 (skipn 62 s) = transparent.
Proof.
  assert (Hgreen : bytes_of_ints [0; 255; 0; 255] = Ok [x00; xff; x00; xff])
    by reflexivity.
  pose proof (ico_data_closed _ _ Hgreen) as Hs.
  eexists. split; [exact Hs|].
  destruct (X6_silhouette [0; 255; 0; 255] _ 8 0 eq_refl Hs) as (H8 & _);
    [lia | lia |].
  destruct (X6_silhouette [0; 255; 0; 255] _ 7 0 eq_refl Hs) as (_ & H7 & _);
    [lia | lia |].
  destruct (X6_silhouette [0; 255; 0; 255] _ 0 0 eq_refl Hs) as (_ & _ & H0);
    [lia | lia |].
  split; [apply H8; lia|]. split; [apply H7; lia|]. apply H0. lia.
Defined.

(** X7: the drawing is mirror-symmetric about column 8: in every row the
    pixel of column [16 - x] is the pixel of column [x], for the columns 1
    to 15 (column 0 has no partner). *)
Theorem X7_mirror (color_bgra : list Z) (s : bytes) (x y : Z) :
  is_bgra color_bgra = true ->
  CreateTemperatureIcons.ico_data color_bgra = Ok s ->
  1 <= x <= 15 -> 0 <= y < 16 ->
  pixel_at (Z.to_nat (y * 16 + (16 - x))) (skipn 62 s)
  = pixel_at (Z.to_nat (y * 16 + x)) (skipn 62 s).
Proof.
  intros Hc Hs Hx Hy.
  destruct (stream_pixel _ _ Hc Hs) as (color & _ & Hpx).
  rewrite !Hpx by lia. apply pattern_pixel_mirror.
Qed.

Lemma X7_mirror_witness :
  exists s,
    CreateTemperatureIcons.ico_data [0; 0; 255; 255] = Ok s /\
    pixel_at (Z.to_nat (13 * 16 + (16 - 5))) (skipn 62 s)
    = pixel_at (Z.to_nat (13 * 16 + 5)) (skipn 62 s).
Proof.
  assert (Hred : bytes_of_ints [0; 0; 255; 255] = Ok red) by reflexivity.
  pose proof (ico_data_closed _ _ Hred) as Hs.
  eexists. split; [exact Hs|].
  apply (X7_mirror [0; 0; 255; 255] _ 5 13 eq_refl Hs); lia.
Defined.

(** ** Colours that are not four bytes *)

Lemma length_flat_map_sum {A : Type} (f : A -> bytes) (xs : list A) :
  length (flat_map f xs) = list_sum (map (fun a => length (f a)) xs).
Proof.
  induction xs as [|a xs IH]; simpl; [reflexivity|].
  now rewrite length_app, IH.
Qed.

Lemma length_pattern_pixel_any (color : bytes) (x y : Z) :
  length (pattern_pixel color x y)
  = match pattern_pixel [] x y with
    | [] => length color
    | _ => 4%nat
    end.
Proof.
  unfold pattern_pixel.
  repeat match goal with
         | |- context [if ?c then _ else _] =>
             match type of c with bool => destruct c end
         end;
    reflexivity.
Qed.

(** Of the 256 pixels, 27 carry the colour. *)
Lemma length_pattern_any (color : bytes) :
  length (pattern color 16 16) = (916 + 27 * length color)%nat.
Proof.
  unfold pattern.
  let r := eval vm_compute in (range 16) in change (range 16) with r.
  rewrite length_flat_map_sum.
  erewrite map_ext;
    [|intros y; rewrite length_flat_map_sum;
      erewrite map_ext; [reflexivity|];
      intros x; apply length_pattern_pixel_any].
  generalize (length color). intros n.
  remember (916 + 27 * n)%nat as total eqn:Etotal.
  cbv -[Nat.add]. subst total. lia.
Qed.

Lemma all_bytes_of_bytes (bs : bytes) : all_bytes (map Z_of_byte bs) = true.
Proof.
  unfold all_bytes. apply forallb_forall. intros z Hz.
  apply in_map_iff in Hz as (b & <- & _).
  pose proof (Z_of_byte_range b). apply andb_true_iff. split.
  - apply Z.leb_le. lia.
  - apply Z.ltb_lt. lia.
Qed.

Lemma all_bytes_Ok (color_bgra : list Z) :
  all_bytes color_bgra = true <->
  exists color, bytes_of_ints color_bgra = Ok color /\
                length color = length color_bgra.
Proof.
  split.
  - apply bytes_of_ints_total.
  - intros (color & Hc & _). apply bytes_of_ints_Ok in Hc. subst color_bgra.
    apply all_bytes_of_bytes.
Qed.

(** X8: [create_colored_ico] takes a colour of any length.  It builds a
    stream exactly when every item of the colour is in 0..255, and raises
    [ValueError] otherwise; the stream has 978 + 27 * len(colour) bytes
    while its header always declares 1024 bytes of pixels, so the pixel data
    have the declared size only for a colour of four items. *)
Theorem X8_colour_of_any_length (color_bgra : list Z) :
  (all_bytes color_bgra = true ->
   exists s,
     CreateTemperatureIcons.ico_data color_bgra = Ok s /\
     length s = (978 + 27 * length color_bgra)%nat /\
     u32_at 42 s = 1024 /\
     (Z.of_nat (length (skipn 62 s)) = u32_at 42 s <->
      length color_bgra = 4%nat)) /\
  (all_bytes color_bgra = false ->
   CreateTemperatureIcons.ico_data color_bgra = Raise ValueError).
Proof.
  split.
  - intros (color & Hc & Hl)%all_bytes_Ok.
    exists (headers 16 16 ++ pattern color 16 16).
    split; [now apply ico_data_closed|].
    destruct (header_fields 16 16 (pattern color 16 16) fits_16 fits_16)
      as (_ & _ & _ & _ & _ & _ & F42).
    cbv zeta in F42. rewrite F42.
    change (skipn 62 (headers 16 16 ++ pattern color 16 16))
      with (pattern color 16 16).
    rewrite length_app, length_headers, length_pattern_any, Hl.
    repeat split; lia.
  - intros Hbad. destruct (bytes_of_ints color_bgra) as [color|e] eqn:Hc.
    + assert (Hok : all_bytes color_bgra = true).
      { apply bytes_of_ints_Ok in Hc. subst color_bgra.
        apply all_bytes_of_bytes. }
      congruence.
    + exact (ico_data_raises _ _ Hc).
Qed.

Lemma X8_colour_of_any_length_witness :
  (exists s,
     CreateTemperatureIcons.ico_data [0; 0; 255] = Ok s /\
     length s = 1059%nat) /\
  (exists s,
     CreateTemperatureIcons.ico_data [] = Ok s /\ length s = 978%nat) /\
  CreateTemperatureIcons.ico_data [0; 0; 255; -1] = Raise ValueError.
Proof.
  repeat apply conj.
  - destruct (proj1 (X8_colour_of_any_length [0; 0; 255]) eq_refl)
      as (s & Hs & Hl & _).
    exists s. split; assumption.
  - destruct (proj1 (X8_colour_of_any_length []) eq_refl)
      as (s & Hs & Hl & _).
    exists s. split; assumption.
  - exact (proj2 (X8_colour_of_any_length [0; 0; 255; -1]) eq_refl).
Defined.

(** ** Reading the colour back *)

Lemma colour_of_stream (color : bytes) :
  length color = 4%nat ->
  pixel_at 8 (skipn 62 (headers 16 16 ++ pattern color 16 16)) = color.
Proof.
  intros Hl.
  change (skipn 62 (headers 16 16 ++ pattern color 16 16))
    with (pattern color 16 16).
  apply (pattern_at color 16 16 8 0 Hl); lia.
Qed.

(** X11: the colour can be read back from the stream: two colours of four
    bytes for which [create_colored_ico] builds the same stream are the same
    colour, so different colours always give different icon files. *)
Theorem X11_colour_injective (color1 color2 : list Z) (s : bytes) :
  is_bgra color1 = true -> is_bgra color2 = true ->
  CreateTemperatureIcons.ico_data color1 = Ok s ->
  CreateTemperatureIcons.ico_data color2 = Ok s ->
  color1 = color2.
Proof.
  intros (c1 & H1 & Hl1)%is_bgra_bytes (c2 & H2 & Hl2)%is_bgra_bytes Hs1 Hs2.
  rewrite (ico_data_closed _ _ H1) in Hs1.
  rewrite (ico_data_closed _ _ H2) in Hs2.
  assert (Heq : headers 16 16 ++ pattern c1 16 16
                = headers 16 16 ++ pattern c2 16 16) by congruence.
  apply (f_equal (fun t => pixel_at 8 (skipn 62 t))) in Heq.
  rewrite !colour_of_stream in Heq by assumption.
  apply bytes_of_ints_Ok in H1, H2. congruence.
Qed.

Lemma X11_colour_injective_witness :
  exists s,
    CreateTemperatureIcons.ico_data [0; 165; 255; 255] = Ok s /\
    [0; 165; 255; 255] = [0; 165; 255; 255].
Proof.
  assert (Hwarm : bytes_of_ints [0; 165; 255; 255] = Ok [x00; xa5; xff; xff])
    by reflexivity.
  pose proof (ico_data_closed _ _ Hwarm) as Hs.
  eexists. split; [exact Hs|].
  exact (X11_colour_injective [0; 165; 255; 255] [0; 165; 255; 255] _
           eq_refl eq_refl Hs Hs).
Defined.

(** ** The mercury shade of scripts/create_icons.py *)

Lemma length_enumerate_from {A : Type} (k : Z) (xs : list A) :
  length (CreateIcons.enumerate_from k xs) = length xs.
Proof.
  revert k. induction xs as [|x xs IH]; intros k; simpl; [|rewrite IH];
    reflexivity.
Qed.

Lemma nth_error_enumerate_from {A : Type} (k : Z) (xs : list A) (i : nat) :
  nth_error (CreateIcons.enumerate_from k xs) i
  = option_map (fun x => (k + Z.of_nat i, x)) (nth_error xs i).
Proof.
  revert k i. induction xs as [|x xs IH]; intros k [|i];
    cbn [nth_error CreateIcons.enumerate_from option_map]; try reflexivity.
  - now rewrite Z.add_0_r.
  - rewrite IH. destruct (nth_error xs i); cbn [option_map]; [|reflexivity].
    do 2 f_equal. lia.
Qed.

Lemma in_enumerate_from {A : Type} (k i : Z) (x : A) (xs : list A) :
  In (i, x) (CreateIcons.enumerate_from k xs) -> In x xs.
Proof.
  revert k. induction xs as [|y xs IH]; intros k; simpl; [tauto|].
  intros [[= _ <-] | Hin]; [now left | right; eauto].
Qed.

(** X14: the shade of the mercury level (line 62 of
    [create_thermometer_icon]).  It has as many components as the colour;
    each of the first three is raised by 20 and capped at 255, every later
    one (the alpha) is kept; and a colour whose components are all in
    0..255 gives a shade whose components are all in 0..255. *)
Theorem X14_mercury_color (color : list Z) :
  length (CreateIcons.mercury_color color) = length color /\
  (forall (i : nat) (c : Z),
     nth_error color i = Some c ->
     nth_error (CreateIcons.mercury_color color) i
     = Some (if (i <? 3)%nat then Z.min 255 (c + 20) else c)) /\
  (all_bytes color = true ->
   all_bytes (CreateIcons.mercury_color color) = true).
Proof.
  unfold CreateIcons.mercury_color, CreateIcons.enumerate.
  repeat apply conj.
  - now rewrite length_map, length_enumerate_from.
  - intros i c Hc.
    rewrite nth_error_map, nth_error_enumerate_from, Hc.
    cbn [option_map]. rewrite Z.add_0_l.
    destruct (Nat.ltb_spec i 3), (Z.ltb_spec (Z.of_nat i) 3);
      reflexivity || lia.
  - unfold all_bytes. rewrite !forallb_forall. intros Hall z Hz.
    apply in_map_iff in Hz as ([i c] & <- & Hin).
    apply in_enumerate_from, Hall in Hin.
    apply andb_true_iff in Hin as [H0%Z.leb_le H255%Z.ltb_lt].
    apply andb_true_iff.
    destruct (i <? 3); split; (apply Z.leb_le || apply Z.ltb_lt); lia.
Qed.

Lemma X14_mercury_color_witness :
  CreateIcons.mercury_color [0; 255; 0; 255] = [20; 255; 20; 255] /\
  all_bytes (CreateIcons.mercury_color [250; 165; 0; 255]) = true.
Proof.
  split; [reflexivity|].
  exact (proj2 (proj2 (X14_mercury_color [250; 165; 0; 255])) eq_refl).
Defined.
